(** * ember-debug: the debug function registry and the stripped-flags check

    A shallow embedding of [packages/ember-debug/lib/index.js].

    The module keeps a mutable object [debugFunctions] from operation names
    to functions, nine public entry points that forward to whatever is
    registered under their name, development implementations installed at
    module initialization, and a consistency check on feature flags.

    JavaScript functions are first-class and are stored in the registry, so
    function values are represented by codes ([func]) and run by an
    interpreter ([call]).  A registered function may call back into the
    registry (the wrapper made by [deprecateFunc] calls [deprecate]), hence
    the interpreter is indexed by a call depth, which plays the role of the
    engine's bounded call stack. *)

From stdpp Require Import gmap strings list pretty.

Open Scope string_scope.

#[local] Set Warnings "-register-all".

(** ** Values *)

Inductive error_class := EmberError | TypeError.

(** Numbers are restricted to integers and NaN; objects are plain objects
    given by their own enumerable data properties, in the order in which
    [Object.keys] lists them. *)
Inductive value :=
  | VUndefined
  | VNull
  | VBool (b : bool)
  | VNum (n : Z)
  | VNaN
  | VStr (s : string)
  | VObj (props : list (string * value))
  | VError (cls : error_class) (message : string)
  | VFun (f : func)
with func :=
  (* a function supplied by the embedding application *)
  | Host (id : nat)
  (* the members of the object literal [debugFunctions] (lines 17-26) *)
  | Noop (name : string)
  | LastArg
  (* the development implementations (lines 61-169) *)
  | fn_assert
  | fn_debug
  | fn_info
  | fn_deprecateFunc
  | deprecated_with_options (message options func : value)
  | deprecated (message func : value)
  | fn_runInDebug
  | fn_debugSeal
  | fn_debugFreeze
  | _deprecate
  | _warn
  (* the listener of the window's load event (lines 214-226) *)
  | inspector_hint.

(** Calls that leave the module: the logging sink of [ember-console], the
    handler chains of [./warn] and [./deprecate], and built-ins whose effect
    lies outside the registry. *)
Inductive event :=
  | Logger_debug (message : string)
  | Logger_info (args : list value)
  | warn_handlers (args : list value)
  | deprecate_handlers (args : list value)
  | Object_seal (obj : value)
  | Object_freeze (obj : value)
  | window_addEventListener (type : string) (listener : value).

Record state := State {
  debugFunctions : gmap string value;
  FEATURES : gmap string value;
  trace : list event
}.

Inductive outcome :=
  | Return (v : value) (s : state)
  | Throw (e : value) (s : state)
  | OutOfFuel.

(** What the module imports or is handed by its callers. *)
Record environment := Environment {
  (* the functions of the embedding application, each given by what a call
     does to the state and how it completes *)
  host_call : nat -> value -> list value -> state -> outcome;
  (* the default export of [./features] *)
  isFeatureEnabled : string -> state -> value;
  (* the result of [isTesting()] of [./testing] *)
  isTesting : bool;
  (* [ENV] of [ember-environment] and [DEFAULT_FEATURES] of [ember/features] *)
  ENV_ENABLE_OPTIONAL_FEATURES : value;
  ENV_FEATURES : value;
  DEFAULT_FEATURES : value;
  (* the members every plain object inherits from [Object.prototype] *)
  Object_prototype : string -> option value;
  (* the properties of strings, functions and errors other than own
     enumerable ones *)
  builtin_property : value -> string -> option value;
  (* string conversion of objects and functions *)
  ToString_object : value -> string;
  has_window_addEventListener : bool;
  isFirefox : bool;
  isChrome : bool;
  (* [document.documentElement.dataset] exists and has no [emberExtension] *)
  inspector_missing : bool
}.

(** ** JavaScript primitives used by the module *)

Definition truthy (v : value) : bool :=
  match v with
  | VUndefined | VNull | VNaN => false
  | VBool b => b
  | VNum n => negb (n =? 0)%Z
  | VStr s => negb (String.eqb s "")
  | VObj _ | VError _ _ | VFun _ => true
  end.

(** [!v] *)
Definition negate (v : value) : value := VBool (negb (truthy v)).

Definition nth_arg (i : nat) (args : list value) : value :=
  default VUndefined (args !! i).

Definition bind (o : outcome) (k : value -> state -> outcome) : outcome :=
  match o with
  | Return v s => k v s
  | Throw e s => Throw e s
  | OutOfFuel => OutOfFuel
  end.

Definition log (e : event) (s : state) : state :=
  {| debugFunctions := debugFunctions s;
     FEATURES := FEATURES s;
     trace := trace s ++ [e] |}.

(** Modelled from the spec: the logging sink of [ember-console] and the
    handler chains behind the default exports of [./warn] and [./deprecate]
    are not part of the source.  A call reports to the sink or chain and
    returns; [deprecate] and [warn] are non-fatal, execution continues. *)
Definition report (e : event) (s : state) : outcome :=
  Return VUndefined (log e s).

(** Modelled from the spec: the constructor of [./error] is not part of the
    source.  It makes an error that carries the description string. *)
Definition new_EmberError (message : string) : value :=
  VError EmberError message.

Fixpoint assoc (key : string) (props : list (string * value)) : option value :=
  match props with
  | [] => None
  | (k, v) :: rest => if String.eqb key k then Some v else assoc key rest
  end.

(** The characters of a string primitive are its own enumerable properties,
    under the decimal indices. *)
Fixpoint string_chars (i : nat) (s : string) : list (string * value) :=
  match s with
  | EmptyString => []
  | String c rest => (pretty i, VStr (String c EmptyString)) :: string_chars (S i) rest
  end.

Definition own_enumerable (v : value) : list (string * value) :=
  match v with
  | VObj props => props
  | VStr s => string_chars 0 s
  | _ => []
  end.

Section Semantics.

Context (env : environment).

Definition ToString (v : value) : string :=
  match v with
  | VUndefined => "undefined"
  | VNull => "null"
  | VBool true => "true"
  | VBool false => "false"
  | VNum n => pretty n
  | VNaN => "NaN"
  | VStr s => s
  | VObj _ | VError _ _ | VFun _ => ToString_object env v
  end.

(** [Object.keys(v)] as of ES2015, where a primitive is first converted to
    an object; [None] stands for the TypeError on undefined and null. *)
Definition Object_keys (v : value) : option (list string) :=
  match v with
  | VUndefined | VNull => None
  | _ => Some ((own_enumerable v).*1)
  end.

(** [v[key]]; [None] stands for the TypeError on undefined and null. *)
Definition get_property (v : value) (key : string) : option value :=
  match v with
  | VUndefined | VNull => None
  | VObj props =>
      Some (match assoc key props with
            | Some x => x
            | None => default VUndefined (Object_prototype env key)
            end)
  | _ =>
      Some (match assoc key (own_enumerable v) with
            | Some x => x
            | None => default VUndefined (builtin_property env v key)
            end)
  end.

(** [key in v]; [None] stands for the TypeError on a primitive. *)
Definition has_property (key : string) (v : value) : option bool :=
  match v with
  | VObj props =>
      Some (bool_decide (is_Some (assoc key props))
            || bool_decide (is_Some (Object_prototype env key)))
  | VError _ _ | VFun _ =>
      Some (bool_decide (is_Some (builtin_property env v key)))
  | _ => None
  end.

(** ** The registry (lines 243-249) *)

(** The member access [debugFunctions[name]], also written
    [debugFunctions.name]: an own property, or else what the object literal
    inherits. *)
Definition member (name : string) (s : state) : value :=
  match debugFunctions s !! name with
  | Some fn => fn
  | None => default VUndefined (Object_prototype env name)
  end.

Definition getDebugFunction (name : string) (s : state) : value :=
  member name s.

Definition setDebugFunction (name : string) (fn : value) (s : state) : state :=
  {| debugFunctions := <[name := fn]> (debugFunctions s);
     FEATURES := FEATURES s;
     trace := trace s |}.

(** ** Calling function values *)

(** [callee.apply(this, args)] and [callee()]: anything but a function ends
    in a TypeError. *)
Definition apply_with (callf : func -> value -> list value -> state -> outcome)
    (callee this : value) (args : list value) (s : state) : outcome :=
  match callee with
  | VFun f => callf f this args s
  | _ => Throw (VError TypeError "not a function") s
  end.

(** The entry points [deprecate] and [debug] as seen from inside a function
    body. *)
Definition deprecate_with (callf : func -> value -> list value -> state -> outcome)
    (args : list value) (s : state) : outcome :=
  apply_with callf (member "deprecate" s) VUndefined args s.

Definition debug_with (callf : func -> value -> list value -> state -> outcome)
    (args : list value) (s : state) : outcome :=
  apply_with callf (member "debug" s) VUndefined args s.

Definition downloadURL : value :=
  if isChrome env then
    VStr "https://chrome.google.com/webstore/detail/ember-inspector/bmdblncegkenkacieihfhpjfppoconhi"
  else if isFirefox env then
    VStr "https://addons.mozilla.org/en-US/firefox/addon/ember-inspector/"
  else VUndefined.

Fixpoint call (fuel : nat) (f : func) (this : value) (args : list value)
    (s : state) {struct fuel} : outcome :=
  match fuel with
  | 0 => OutOfFuel
  | S fuel =>
      match f with
      | Host id => host_call env id this args s
      | Noop _ => Return VUndefined s
      | LastArg => Return (default VUndefined (last args)) s
      | fn_assert =>
          let desc := nth_arg 0 args in
          let test := nth_arg 1 args in
          if truthy test then Return VUndefined s
          else Throw (new_EmberError ("Assertion Failed: " +:+ ToString desc)) s
      | fn_debug =>
          let message := nth_arg 0 args in
          report (Logger_debug ("DEBUG: " +:+ ToString message)) s
      | fn_info => report (Logger_info args) s
      | fn_deprecateFunc =>
          match args with
          | [message; options; func] =>
              Return (VFun (deprecated_with_options message options func)) s
          | _ =>
              let message := nth_arg 0 args in
              let func := nth_arg 1 args in
              Return (VFun (deprecated message func)) s
          end
      | deprecated_with_options message options func =>
          bind (deprecate_with (call fuel) [message; VBool false; options] s)
               (fun _ s => apply_with (call fuel) func this args s)
      | deprecated message func =>
          bind (deprecate_with (call fuel) [message] s)
               (fun _ s => apply_with (call fuel) func this args s)
      | fn_runInDebug =>
          let func := nth_arg 0 args in
          bind (apply_with (call fuel) func VUndefined [] s)
               (fun _ s => Return VUndefined s)
      | fn_debugSeal => Return VUndefined (log (Object_seal (nth_arg 0 args)) s)
      | fn_debugFreeze => Return VUndefined (log (Object_freeze (nth_arg 0 args)) s)
      | _deprecate => report (deprecate_handlers args) s
      | _warn => report (warn_handlers args) s
      | inspector_hint =>
          if inspector_missing env then
            bind (debug_with (call fuel)
                    [VStr ("For more advanced debugging, install the Ember Inspector from "
                           +:+ ToString downloadURL)] s)
                 (fun _ s => Return VUndefined s)
          else Return VUndefined s
      end
  end.

(** ** The public entry points (lines 251-285) *)

Definition assert (fuel : nat) (args : list value) (s : state) : outcome :=
  apply_with (call fuel) (member "assert" s) VUndefined args s.

Definition info (fuel : nat) (args : list value) (s : state) : outcome :=
  apply_with (call fuel) (member "info" s) VUndefined args s.

Definition warn (fuel : nat) (args : list value) (s : state) : outcome :=
  apply_with (call fuel) (member "warn" s) VUndefined args s.

Definition debug (fuel : nat) (args : list value) (s : state) : outcome :=
  debug_with (call fuel) args s.

Definition deprecate (fuel : nat) (args : list value) (s : state) : outcome :=
  deprecate_with (call fuel) args s.

Definition deprecateFunc (fuel : nat) (args : list value) (s : state) : outcome :=
  apply_with (call fuel) (member "deprecateFunc" s) VUndefined args s.

Definition runInDebug (fuel : nat) (args : list value) (s : state) : outcome :=
  apply_with (call fuel) (member "runInDebug" s) VUndefined args s.

Definition debugSeal (fuel : nat) (args : list value) (s : state) : outcome :=
  apply_with (call fuel) (member "debugSeal" s) VUndefined args s.

Definition debugFreeze (fuel : nat) (args : list value) (s : state) : outcome :=
  apply_with (call fuel) (member "debugFreeze" s) VUndefined args s.

(** ** The feature-flag check (lines 181-195) *)

Definition stripped_options : value :=
  VObj [("id", VStr "ember-debug.feature-flag-with-features-stripped")].

Definition optional_features_message : string :=
  "Ember.ENV.ENABLE_OPTIONAL_FEATURES is only available in canary builds.".

(** The double-quote character, code 34. *)
Definition dquote : string := String (Ascii.ascii_of_nat 34) EmptyString.

Definition flag_message (key : string) : string :=
  "FEATURE[" +:+ dquote +:+ key +:+ dquote
  +:+ "] is set as enabled, but FEATURE flags are only available in canary builds.".

(** The body of the [for] loop, over the keys from index [i] on.  The
    parameter [FEATURES] shadows the module-level object, as in the source. *)
Fixpoint warn_flags (fuel : nat) (FEATURES knownFeatures : value)
    (keys : list string) (s : state) : outcome :=
  match keys with
  | [] => Return VUndefined s
  | key :: keys =>
      if String.eqb key "isEnabled" then warn_flags fuel FEATURES knownFeatures keys s
      else
        match has_property key knownFeatures with
        | None => Throw (VError TypeError "invalid 'in' operand") s
        | Some false => warn_flags fuel FEATURES knownFeatures keys s
        | Some true =>
            match get_property FEATURES key with
            | None => Throw (VError TypeError "cannot read property") s
            | Some flag =>
                bind (warn fuel [VStr (flag_message key); negate flag; stripped_options] s)
                     (fun _ s => warn_flags fuel FEATURES knownFeatures keys s)
            end
        end
  end.

Definition _warnIfUsingStrippedFeatureFlags (fuel : nat)
    (FEATURES knownFeatures featuresWereStripped : value) (s : state) : outcome :=
  if truthy featuresWereStripped then
    bind (warn fuel [VStr optional_features_message;
                     negate (ENV_ENABLE_OPTIONAL_FEATURES env);
                     stripped_options] s)
         (fun _ s =>
            match Object_keys (if truthy FEATURES then FEATURES else VObj []) with
            | None => Throw (VError TypeError "Object.keys called on non-object") s
            | Some keys => warn_flags fuel FEATURES knownFeatures keys s
            end)
  else Return VUndefined s.

(** ** Module initialization *)

(** The object literal of lines 17-26. *)
Definition initial_debugFunctions : gmap string value :=
  <["debugFreeze" := VFun (Noop "debugFreeze")]>
  (<["debugSeal" := VFun (Noop "debugSeal")]>
  (<["deprecateFunc" := VFun LastArg]>
  (<["deprecate" := VFun (Noop "deprecate")]>
  (<["debug" := VFun (Noop "debug")]>
  (<["warn" := VFun (Noop "warn")]>
  (<["info" := VFun (Noop "info")]>
  (<["assert" := VFun (Noop "assert")]> ∅))))))).

(** The state in which the body of the module starts: the object literal,
    the [FEATURES] object imported from [ember/features], nothing reported
    yet. *)
Definition initial_state (flags : gmap string value) : state :=
  {| debugFunctions := initial_debugFunctions; FEATURES := flags; trace := [] |}.

(** The nine calls of [setDebugFunction] at lines 61-169, in order. *)
Definition install_development_functions (s : state) : state :=
  setDebugFunction "warn" (VFun _warn)
  (setDebugFunction "deprecate" (VFun _deprecate)
  (setDebugFunction "debugFreeze" (VFun fn_debugFreeze)
  (setDebugFunction "debugSeal" (VFun fn_debugSeal)
  (setDebugFunction "runInDebug" (VFun fn_runInDebug)
  (setDebugFunction "deprecateFunc" (VFun fn_deprecateFunc)
  (setDebugFunction "info" (VFun fn_info)
  (setDebugFunction "debug" (VFun fn_debug)
  (setDebugFunction "assert" (VFun fn_assert) s)))))))).

Definition canary : string := "features-stripped-test".

Definition set_feature (key : string) (v : value) (s : state) : state :=
  {| debugFunctions := debugFunctions s;
     FEATURES := <[key := v]> (FEATURES s);
     trace := trace s |}.

Definition delete_feature (key : string) (s : state) : state :=
  {| debugFunctions := debugFunctions s;
     FEATURES := delete key (FEATURES s);
     trace := trace s |}.

(** Lines 199-206: the value of [featuresWereStripped] and the state after
    the [delete]. *)
Definition features_stripped_probe (s : state) : bool * state :=
  let s := set_feature canary (VBool true) s in
  let featuresWereStripped := true in
  let featuresWereStripped :=
    if truthy (isFeatureEnabled env canary s) then false else featuresWereStripped in
  let s := delete_feature canary s in
  (featuresWereStripped, s).

Definition runningNonEmberDebugJS : bool := false.

(** The body of the module. *)
Definition module_init (fuel : nat) (flags : gmap string value) : outcome :=
  let s := initial_state flags in
  let s := install_development_functions s in
  bind
    (if negb (isTesting env) then
       let '(featuresWereStripped, s) := features_stripped_probe s in
       bind (_warnIfUsingStrippedFeatureFlags fuel (ENV_FEATURES env)
               (DEFAULT_FEATURES env) (VBool featuresWereStripped) s)
            (fun _ s =>
               if has_window_addEventListener env && (isFirefox env || isChrome env) then
                 Return VUndefined
                   (log (window_addEventListener "load" (VFun inspector_hint)) s)
               else Return VUndefined s)
     else Return VUndefined s)
    (fun _ s =>
       if runningNonEmberDebugJS then
         warn fuel [VStr "Please use `ember.debug.js` instead of `ember.js` for development and debugging."] s
       else Return VUndefined s).

End Semantics.

(** ** The nine entry points as one family *)

Inductive entry_point :=
  | ep_assert | ep_info | ep_warn | ep_debug | ep_deprecate
  | ep_deprecateFunc | ep_runInDebug | ep_debugSeal | ep_debugFreeze.

Definition entry_name (ep : entry_point) : string :=
  match ep with
  | ep_assert => "assert"
  | ep_info => "info"
  | ep_warn => "warn"
  | ep_debug => "debug"
  | ep_deprecate => "deprecate"
  | ep_deprecateFunc => "deprecateFunc"
  | ep_runInDebug => "runInDebug"
  | ep_debugSeal => "debugSeal"
  | ep_debugFreeze => "debugFreeze"
  end.

Definition enter (env : environment) (ep : entry_point)
    : nat -> list value -> state -> outcome :=
  match ep with
  | ep_assert => assert env
  | ep_info => info env
  | ep_warn => warn env
  | ep_debug => debug env
  | ep_deprecate => deprecate env
  | ep_deprecateFunc => deprecateFunc env
  | ep_runInDebug => runInDebug env
  | ep_debugSeal => debugSeal env
  | ep_debugFreeze => debugFreeze env
  end.

(** ** Vocabulary of the statements *)

(** [sub] occurs in [s]. *)
Definition contains (s sub : string) : Prop :=
  exists pre post, s = pre +:+ sub +:+ post.

(** The names of the members of the object literal [debugFunctions]. *)
Definition initial_names : list string :=
  ["assert"; "info"; "warn"; "debug"; "deprecate"; "deprecateFunc";
   "debugSeal"; "debugFreeze"].

(** The state after the development implementations are installed. *)
Definition development_state (flags : gmap string value) : state :=
  install_development_functions (initial_state flags).

(** What the specification says, by argument count, that the wrapper of
    [deprecateFunc(...args)] passes to [deprecate], and which argument it
    takes as the target: with exactly three arguments the message, [false]
    and the options, and the third argument as target; otherwise the message
    alone, and the second argument as target. *)
Definition deprecation_arguments (args : list value) : list value :=
  if decide (length args = 3) then [nth_arg 0 args; VBool false; nth_arg 1 args]
  else [nth_arg 0 args].

Definition deprecation_target (args : list value) : value :=
  if decide (length args = 3) then nth_arg 2 args else nth_arg 1 args.

(** The state [s] with [new] appended to its trace. *)
Definition extend (s : state) (new : list event) : state :=
  {| debugFunctions := debugFunctions s;
     FEATURES := FEATURES s;
     trace := trace s ++ new |}.

(** Modelled from the spec: the handler chain of [./warn] is not part of the
    source.  It receives the message, the test result and the options; the
    check passes the negation of a flag as the test in order to warn about a
    truthy flag, so a warning is raised exactly when the test is falsy, and
    it is identified by its message. *)
Definition warning_raised (e : event) : option value :=
  match e with
  | warn_handlers args =>
      if truthy (nth_arg 1 args) then None else Some (nth_arg 0 args)
  | _ => None
  end.

Definition emitted_warnings (new : list event) : list value :=
  omap warning_raised new.

(** The keys of the flags argument of the check, the value of a flag, and
    the keys the specification of the check speaks about: those other than
    [isEnabled] that are in [knownFeatures]. *)
Definition flag_keys (FEATURES : value) : list string :=
  (own_enumerable FEATURES).*1.

Definition flag_value (env : environment) (FEATURES : value) (key : string) : value :=
  default VUndefined (get_property env FEATURES key).

Definition checked (env : environment) (knownFeatures : value) (key : string) : bool :=
  negb (String.eqb key "isEnabled")
  && bool_decide (has_property env key knownFeatures = Some true).

Definition warned_keys (env : environment) (FEATURES knownFeatures : value)
    : list string :=
  filter (fun key => checked env knownFeatures key
                     && truthy (flag_value env FEATURES key) = true)
         (flag_keys FEATURES).

(** The report the loop sends for a key it checks. *)
Definition flag_report (env : environment) (FEATURES : value) (key : string) : event :=
  warn_handlers [VStr (flag_message key); negate (flag_value env FEATURES key);
                 stripped_options].

(** The warning about the global switch, raised when the switch is truthy. *)
Definition optional_features_warning (env : environment) : list value :=
  if truthy (ENV_ENABLE_OPTIONAL_FEATURES env)
  then [VStr optional_features_message] else [].

(** ** Concrete environments

    A build in which flags are not stripped: the query reads the flag
    object.  A host function returns an object that records its [this] and
    its arguments. *)
Definition sample_host (id : nat) (this : value) (args : list value) (s : state)
    : outcome :=
  Return (VObj (("this", this) :: imap (fun i arg => (pretty i, arg)) args)) s.

Definition sample_env : environment := {|
  host_call := sample_host;
  isFeatureEnabled := fun key s => default VUndefined (FEATURES s !! key);
  isTesting := false;
  ENV_ENABLE_OPTIONAL_FEATURES := VUndefined;
  ENV_FEATURES := VObj [("a", VBool true); ("b", VBool false)];
  DEFAULT_FEATURES := VObj [("a", VBool true); ("b", VBool true)];
  Object_prototype := fun _ => None;
  builtin_property := fun _ _ => None;
  ToString_object := fun _ => "[object Object]";
  has_window_addEventListener := true;
  isFirefox := false;
  isChrome := true;
  inspector_missing := true
|}.

(** A build from which flags are stripped: every query is the constant
    [false]; the global switch is on. *)
Definition stripped_env : environment := {|
  host_call := sample_host;
  isFeatureEnabled := fun _ _ => VBool false;
  isTesting := false;
  ENV_ENABLE_OPTIONAL_FEATURES := VBool true;
  ENV_FEATURES := VObj [("a", VBool true); ("b", VBool false)];
  DEFAULT_FEATURES := VObj [("a", VBool true); ("b", VBool true)];
  Object_prototype := fun _ => None;
  builtin_property := fun _ _ => None;
  ToString_object := fun _ => "[object Object]";
  has_window_addEventListener := false;
  isFirefox := false;
  isChrome := false;
  inspector_missing := false
|}.

(** An environment in which [isTesting()] is true. *)
Definition testing_env : environment := {|
  host_call := sample_host;
  isFeatureEnabled := fun _ _ => VBool false;
  isTesting := true;
  ENV_ENABLE_OPTIONAL_FEATURES := VBool true;
  ENV_FEATURES := VObj [("a", VBool true)];
  DEFAULT_FEATURES := VObj [("a", VBool true)];
  Object_prototype := fun _ => None;
  builtin_property := fun _ _ => None;
  ToString_object := fun _ => "[object Object]";
  has_window_addEventListener := true;
  isFirefox := true;
  isChrome := false;
  inspector_missing := true
|}.

(** ** Further vocabulary *)

(** The implementation that the body of the module registers under the name
    of each entry point (lines 61-169). *)
Definition development_implementation (ep : entry_point) : func :=
  match ep with
  | ep_assert => fn_assert
  | ep_info => fn_info
  | ep_warn => _warn
  | ep_debug => fn_debug
  | ep_deprecate => _deprecate
  | ep_deprecateFunc => fn_deprecateFunc
  | ep_runInDebug => fn_runInDebug
  | ep_debugSeal => fn_debugSeal
  | ep_debugFreeze => fn_debugFreeze
  end.

(** From [s] to [s'] the registry and the flag object are the same and the
    trace has only been added to. *)
Definition grows (s s' : state) : Prop :=
  debugFunctions s' = debugFunctions s
  /\ FEATURES s' = FEATURES s
  /\ trace s `prefix_of` trace s'.

Definition keeps (s : state) (o : outcome) : Prop :=
  match o with
  | Return _ s' | Throw _ s' => grows s s'
  | OutOfFuel => True
  end.

(** The call of [warn] about the global switch (line 183). *)
Definition optional_features_report (env : environment) : event :=
  warn_handlers [VStr optional_features_message;
                 negate (ENV_ENABLE_OPTIONAL_FEATURES env);
                 stripped_options].

(** The registration of the listener at line 214. *)
Definition load_listener : event :=
  window_addEventListener "load" (VFun inspector_hint).

Definition is_warn_report (e : event) : Prop :=
  match e with
  | warn_handlers _ => True
  | _ => False
  end.

(** The values to which the operator [in] does not apply. *)
Definition primitive (v : value) : Prop :=
  match v with
  | VObj _ | VError _ _ | VFun _ => False
  | _ => True
  end.

(** The outcome [o] of a computation started in [s] has only added calls of
    the handler chain of [./warn] to the trace. *)
Definition only_warns (s : state) (o : outcome) : Prop :=
  match o with
  | Return _ s' | Throw _ s' =>
      exists new, s' = extend s new /\ Forall is_warn_report new
  | OutOfFuel => True
  end.

(** The two addresses of lines 219 and 221. *)
Definition chrome_store : string :=
  "https://chrome.google.com/webstore/detail/ember-inspector/bmdblncegkenkacieihfhpjfppoconhi".

Definition firefox_store : string :=
  "https://addons.mozilla.org/en-US/firefox/addon/ember-inspector/".

(** * Properties *)

(** ** The model at work *)

Example module_init_unstripped :
  module_init sample_env 2 ∅
  = Return VUndefined
      (log (window_addEventListener "load" (VFun inspector_hint))
           (development_state ∅)).
Proof. vm_compute. reflexivity. Qed.

Example module_init_stripped :
  module_init stripped_env 2 ∅
  = Return VUndefined
      (extend (development_state ∅)
         [warn_handlers [VStr optional_features_message; VBool false; stripped_options];
          warn_handlers [VStr (flag_message "a"); VBool false; stripped_options];
          warn_handlers [VStr (flag_message "b"); VBool true; stripped_options]]).
Proof. vm_compute. reflexivity. Qed.

Example deprecated_host_function :
  call sample_env 2 (deprecated (VStr "use newMethod") (VFun (Host 7)))
    (VStr "receiver") [VNum 1; VNum 2] (development_state ∅)
  = Return (VObj [("this", VStr "receiver"); ("0", VNum 1); ("1", VNum 2)])
      (log (deprecate_handlers [VStr "use newMethod"]) (development_state ∅)).
Proof. vm_compute. reflexivity. Qed.

Example assert_without_test :
  assert sample_env 1 [VStr "This code path should never be run"]
    (development_state ∅)
  = Throw (new_EmberError "Assertion Failed: This code path should never be run")
      (development_state ∅).
Proof. vm_compute. reflexivity. Qed.

Example inspector_hint_logs :
  call sample_env 2 inspector_hint VUndefined [] (development_state ∅)
  = Return VUndefined
      (log (Logger_debug
              ("DEBUG: For more advanced debugging, install the Ember Inspector from "
               +:+ "https://chrome.google.com/webstore/detail/ember-inspector/bmdblncegkenkacieihfhpjfppoconhi"))
           (development_state ∅)).
Proof. vm_compute. reflexivity. Qed.

(** ** Registry lookups *)

Ltac unfold_entry :=
  unfold assert, info, warn, debug, deprecate, deprecateFunc, runInDebug,
    debugSeal, debugFreeze, debug_with, deprecate_with.

Lemma member_own env name fn s :
  debugFunctions s !! name = Some fn -> member env name s = fn.
Proof. intros Hown. unfold member. by rewrite Hown. Qed.

Lemma member_set env name fn s :
  member env name (setDebugFunction name fn s) = fn.
Proof. apply member_own. simpl. apply lookup_insert_eq. Qed.


Lemma contains_suffix pre sub : contains (pre +:+ sub) sub.
Proof.
  exists pre, "". f_equal.
  induction sub as [|c sub IH]; [done|].
  change (String c sub = String c (sub +:+ "")). by rewrite <- IH.
Qed.

(** ** assert *)

(** C1. With the development [assert] registered, [assert(desc, test)]
    returns without any effect when [test] is truthy, and otherwise throws an
    error whose message is ["Assertion Failed: "] followed by [desc], which
    therefore contains [desc]. *)
Theorem assert_checks_test env fuel desc test s :
  debugFunctions s !! "assert" = Some (VFun fn_assert) ->
  assert env (S fuel) [VStr desc; test] s
  = (if truthy test then Return VUndefined s
     else Throw (new_EmberError ("Assertion Failed: " +:+ desc)) s)
  /\ contains ("Assertion Failed: " +:+ desc) desc.
Proof.
  intros Hreg. split; [|apply contains_suffix].
  unfold_entry. rewrite (member_own _ _ _ _ Hreg). reflexivity.
Qed.

Lemma assert_checks_test_witness :
  assert sample_env 1 [VStr "Must pass a valid object"; VNull] (development_state ∅)
  = Throw (VError EmberError "Assertion Failed: Must pass a valid object")
      (development_state ∅).
Proof.
  exact (proj1 (assert_checks_test sample_env 0 "Must pass a valid object" VNull
                  (development_state ∅) eq_refl)).
Defined.

(** ** deprecateFunc *)

(** C2. The development [deprecateFunc(message, fn)] returns a wrapper.
    Each call of the wrapper makes one call of [deprecate(message)] and then
    hands its own [this] and arguments to [fn]; the outcome of the wrapper is
    the outcome of [fn].  With the handler chain of [./deprecate] registered,
    the call adds exactly one deprecation report to the trace before [fn]
    runs. *)
Theorem deprecateFunc_wraps env fuel message fn this0 s :
  exists wrapper,
    call env (S fuel) fn_deprecateFunc this0 [message; VFun fn] s
    = Return (VFun wrapper) s
    /\ forall fuel' this args s',
         call env (S fuel') wrapper this args s'
         = bind (deprecate env fuel' [message] s')
                (fun _ s'' => call env fuel' fn this args s'')
         /\ (let dev := setDebugFunction "deprecate" (VFun _deprecate) s' in
             call env (S fuel') wrapper this args dev
             = call env fuel' fn this args (log (deprecate_handlers [message]) dev)).
Proof.
  eexists. split; [reflexivity|].
  intros fuel' this args s'. split; [reflexivity|].
  cbn zeta. destruct fuel' as [|fuel'].
  - cbn [call]. unfold deprecate_with. rewrite member_set. reflexivity.
  - cbn [call]. unfold deprecate_with. rewrite member_set. reflexivity.
Qed.

(** C10. The development [deprecateFunc] dispatches on the number of its
    arguments.  Called with exactly three, the wrapper it returns calls
    [deprecate(message, false, options)] and then the third argument; called
    with any other number, the wrapper calls [deprecate(message)] and then the
    second argument, whatever follows it being ignored. *)
Theorem deprecateFunc_dispatches_on_arity env fuel this0 args s :
  exists wrapper,
    call env (S fuel) fn_deprecateFunc this0 args s = Return (VFun wrapper) s
    /\ forall fuel' this args' s',
         call env (S fuel') wrapper this args' s'
         = bind (deprecate env fuel' (deprecation_arguments args) s')
                (fun _ s'' =>
                   apply_with (call env fuel') (deprecation_target args)
                     this args' s'').
Proof.
  unfold deprecation_arguments, deprecation_target.
  destruct args as [|a0 [|a1 [|a2 [|a3 rest]]]];
    (eexists; split; [reflexivity|]; intros; reflexivity).
Qed.

(** ** The registry *)

(** C4. After [setDebugFunction('warn', customFn)], a call of [warn] is a
    call of [customFn] with the same arguments and nothing else; for a host
    function this is the host's own outcome.  Reading a name back after
    registering a function under it yields that function. *)
Theorem registered_function_is_called env fuel customFn args s :
  warn env fuel args (setDebugFunction "warn" (VFun customFn) s)
  = call env fuel customFn VUndefined args (setDebugFunction "warn" (VFun customFn) s)
  /\ (forall id,
        warn env (S fuel) args (setDebugFunction "warn" (VFun (Host id)) s)
        = host_call env id VUndefined args (setDebugFunction "warn" (VFun (Host id)) s))
  /\ (forall name fn,
        getDebugFunction env name (setDebugFunction name (VFun fn) s) = VFun fn).
Proof.
  split; [|split].
  - unfold_entry. by rewrite member_set.
  - intros id. unfold_entry. by rewrite member_set.
  - intros name fn. apply member_set.
Qed.

(** C5. While the registry holds the members of the object literal,
    [assert] returns without failing whatever the test, and [deprecateFunc]
    returns its target function itself, with or without options, leaving the
    state (and so the trace) as it was. *)
Theorem initial_functions_do_nothing env fuel flags tr desc test message options fn :
  let s := {| debugFunctions := initial_debugFunctions;
              FEATURES := flags; trace := tr |} in
  assert env (S fuel) [desc; test] s = Return VUndefined s
  /\ deprecateFunc env (S fuel) [message; VFun fn] s = Return (VFun fn) s
  /\ deprecateFunc env (S fuel) [message; options; VFun fn] s = Return (VFun fn) s.
Proof.
  intros s. unfold assert, deprecateFunc.
  rewrite (member_own env "assert" (VFun (Noop "assert")) s eq_refl).
  rewrite (member_own env "deprecateFunc" (VFun LastArg) s eq_refl).
  done.
Qed.

(** C8. Each of the nine entry points calls the function registered under
    its name in the state at the time of the call, with [undefined] as
    [this] and with all the arguments, and its outcome is that function's
    outcome. *)
Theorem entry_point_forwards env ep impl fuel args s :
  debugFunctions s !! entry_name ep = Some (VFun impl) ->
  enter env ep fuel args s = call env fuel impl VUndefined args s.
Proof.
  intros Hreg.
  destruct ep; cbn [enter entry_name] in *; unfold_entry;
    by rewrite (member_own _ _ _ _ Hreg).
Qed.

Lemma entry_point_forwards_witness :
  enter sample_env ep_debug 1 [VStr "notice"] (development_state ∅)
  = Return VUndefined (log (Logger_debug "DEBUG: notice") (development_state ∅)).
Proof.
  exact (entry_point_forwards sample_env ep_debug fn_debug 1 [VStr "notice"]
           (development_state ∅) eq_refl).
Defined.

Lemma initial_names_spec name :
  is_Some (initial_debugFunctions !! name) <-> name ∈ initial_names.
Proof.
  rewrite <- elem_of_dom. unfold initial_debugFunctions, initial_names.
  rewrite !dom_insert_L, dom_empty_L.
  rewrite !elem_of_union, !elem_of_singleton, elem_of_empty.
  rewrite !elem_of_cons, elem_of_nil. tauto.
Qed.

(** C9. The object literal has exactly eight members and none named
    [runInDebug].  In an environment whose [Object.prototype] has no such
    member either, reading [runInDebug] from the initial state yields
    [undefined] and the entry point throws a TypeError; once the development
    implementations are installed the name is bound and the entry point runs
    its argument. *)
Theorem runInDebug_missing_until_installed env fuel flags func :
  Object_prototype env "runInDebug" = None ->
  (forall name, is_Some (initial_debugFunctions !! name) <-> name ∈ initial_names)
  /\ initial_debugFunctions !! "runInDebug" = None
  /\ getDebugFunction env "runInDebug" (initial_state flags) = VUndefined
  /\ (exists what,
        runInDebug env (S fuel) [VFun func] (initial_state flags)
        = Throw (VError TypeError what) (initial_state flags))
  /\ getDebugFunction env "runInDebug" (development_state flags) = VFun fn_runInDebug
  /\ runInDebug env (S fuel) [VFun func] (development_state flags)
     = bind (call env fuel func VUndefined [] (development_state flags))
            (fun _ s => Return VUndefined s).
Proof.
  intros Hproto.
  assert (Hnone : getDebugFunction env "runInDebug" (initial_state flags) = VUndefined).
  { unfold getDebugFunction, member. cbn [debugFunctions initial_state].
    replace (initial_debugFunctions !! "runInDebug") with (@None value) by reflexivity.
    by rewrite Hproto. }
  assert (Hdev : getDebugFunction env "runInDebug" (development_state flags)
                 = VFun fn_runInDebug).
  { apply member_own. reflexivity. }
  split; [exact initial_names_spec|].
  split; [reflexivity|].
  split; [exact Hnone|].
  split; [|split; [exact Hdev|]].
  - eexists. unfold runInDebug.
    fold (getDebugFunction env "runInDebug" (initial_state flags)).
    rewrite Hnone. reflexivity.
  - unfold runInDebug.
    fold (getDebugFunction env "runInDebug" (development_state flags)).
    rewrite Hdev. reflexivity.
Qed.

Lemma runInDebug_missing_until_installed_witness :
  getDebugFunction sample_env "runInDebug" (initial_state ∅) = VUndefined
  /\ getDebugFunction sample_env "runInDebug" (development_state ∅) = VFun fn_runInDebug.
Proof.
  pose proof (runInDebug_missing_until_installed sample_env 0 ∅ (Host 0) eq_refl)
    as (_ & _ & Hinit & _ & Hdev & _).
  exact (conj Hinit Hdev).
Defined.

(** ** The feature-flag check *)

(** C6. Called with a falsy [featuresWereStripped], in particular with
    [false], the check returns at once: no warning is sent and the state is
    the one it was called in, whatever the flags and the known features. *)
Theorem unstripped_flags_are_not_checked env fuel FEATURES knownFeatures
    featuresWereStripped s :
  truthy featuresWereStripped = false ->
  _warnIfUsingStrippedFeatureFlags env fuel FEATURES knownFeatures
    featuresWereStripped s
  = Return VUndefined s.
Proof.
  intros Hfalsy. unfold _warnIfUsingStrippedFeatureFlags. by rewrite Hfalsy.
Qed.

Lemma unstripped_flags_are_not_checked_witness :
  _warnIfUsingStrippedFeatureFlags sample_env 1
    (VObj [("a", VBool true)]) (VObj [("a", VBool true)]) (VBool false)
    (development_state ∅)
  = Return VUndefined (development_state ∅).
Proof.
  exact (unstripped_flags_are_not_checked sample_env 1
           (VObj [("a", VBool true)]) (VObj [("a", VBool true)]) (VBool false)
           (development_state ∅) eq_refl).
Defined.

(** C7. The probe sets the canary flag to [true], asks [isFeatureEnabled]
    for it in that state, and deletes it: flags count as stripped exactly
    when the query did not report the canary, which was set, as enabled.
    Afterwards the flag object has no canary entry, its other entries are as
    before, and neither the registry nor the trace has changed. *)
Theorem canary_probe env s :
  let probing := set_feature canary (VBool true) s in
  let featuresWereStripped := (features_stripped_probe env s).1 in
  let s' := (features_stripped_probe env s).2 in
  FEATURES probing !! canary = Some (VBool true)
  /\ (featuresWereStripped = true
      <-> truthy (isFeatureEnabled env canary probing) = false)
  /\ FEATURES s' !! canary = None
  /\ (forall key, key <> canary -> FEATURES s' !! key = FEATURES s !! key)
  /\ debugFunctions s' = debugFunctions s
  /\ trace s' = trace s.
Proof.
  cbn zeta. unfold features_stripped_probe. cbn [fst snd].
  split; [apply lookup_insert_eq|].
  split; [by destruct (truthy _)|].
  split; [apply lookup_delete_eq|].
  split; [|done].
  intros key Hkey. cbn [FEATURES delete_feature set_feature].
  rewrite lookup_delete_ne by done. by rewrite lookup_insert_ne.
Qed.

Lemma extend_nil s : extend s [] = s.
Proof. destruct s. unfold extend. cbn. by rewrite app_nil_r. Qed.

Lemma extend_extend s new1 new2 :
  extend (extend s new1) new2 = extend s (new1 ++ new2)%list.
Proof. unfold extend. cbn. by rewrite app_assoc. Qed.

Lemma warn_reports env fuel args s :
  debugFunctions s !! "warn" = Some (VFun _warn) ->
  warn env (S fuel) args s = Return VUndefined (extend s [warn_handlers args]).
Proof. intros Hreg. unfold_entry. by rewrite (member_own _ _ _ _ Hreg). Qed.

Lemma warn_flags_reports env fuel FEATURES known keys s :
  debugFunctions s !! "warn" = Some (VFun _warn) ->
  (forall key, key ∈ keys -> is_Some (get_property env FEATURES key)) ->
  warn_flags env (S fuel) FEATURES (VObj known) keys s
  = Return VUndefined
      (extend s (flag_report env FEATURES
                   <$> filter (fun key => checked env (VObj known) key = true) keys)).
Proof.
  revert s. induction keys as [|key keys IH]; intros s Hreg Hget.
  - cbn. by rewrite extend_nil.
  - assert (Hrest : forall k, k ∈ keys -> is_Some (get_property env FEATURES k)).
    { intros k Hk. apply Hget. by right. }
    cbn [warn_flags]. unfold checked at 1.
    destruct (String.eqb key "isEnabled") eqn:Hkey.
    { rewrite filter_cons_False by (unfold checked; rewrite Hkey; cbn; congruence).
      by apply IH. }
    destruct (has_property env key (VObj known)) as [[|]|] eqn:Hin.
    + rewrite filter_cons_True
        by (unfold checked; rewrite Hkey, Hin; by rewrite bool_decide_eq_true_2).
      destruct (Hget key) as [flag Hflag]; [by left|].
      rewrite Hflag, (warn_reports _ _ _ _ Hreg). cbn [bind].
      rewrite IH by done. rewrite extend_extend. cbn [fmap list_fmap].
      unfold flag_report at 2, flag_value. by rewrite Hflag.
    + rewrite filter_cons_False.
      * by apply IH.
      * unfold checked. rewrite Hkey, Hin. cbn.
        rewrite bool_decide_eq_false_2 by congruence. congruence.
    + discriminate Hin.
Qed.

Lemma emitted_flag_reports env FEATURES known keys :
  emitted_warnings
    (flag_report env FEATURES
       <$> filter (fun key => checked env known key = true) keys)
  = (fun key => VStr (flag_message key))
      <$> filter (fun key => checked env known key
                             && truthy (flag_value env FEATURES key) = true) keys.
Proof.
  unfold emitted_warnings.
  induction keys as [|key keys IH]; [done|].
  rewrite !filter_cons.
  destruct (checked env known key) eqn:Hchecked; cbn [andb].
  - rewrite decide_True by done.
    rewrite fmap_cons. cbn [omap list_omap].
    change (warning_raised (flag_report env FEATURES key))
      with (if negb (truthy (flag_value env FEATURES key))
            then None else Some (VStr (flag_message key))).
    destruct (truthy (flag_value env FEATURES key)) eqn:Hflag; cbn [negb].
    + rewrite decide_True by done. cbn [fmap list_fmap]. f_equal. exact IH.
    + rewrite decide_False by done. exact IH.
  - rewrite !decide_False by done. exact IH.
Qed.

Lemma string_app_length (s1 s2 : string) :
  String.length (s1 +:+ s2) = String.length s1 + String.length s2.
Proof.
  induction s1 as [|c s1 IH]; [done|].
  change (S (String.length (s1 +:+ s2)) = S (String.length s1 + String.length s2)).
  by rewrite IH.
Qed.

Lemma string_app_inj_r (r s1 s2 : string) : s1 +:+ r = s2 +:+ r -> s1 = s2.
Proof.
  revert s2. induction s1 as [|c1 s1 IH]; intros [|c2 s2] Heq.
  - done.
  - apply (f_equal String.length) in Heq. rewrite !string_app_length in Heq.
    cbn in Heq. lia.
  - apply (f_equal String.length) in Heq. rewrite !string_app_length in Heq.
    cbn in Heq. lia.
  - change (String c1 (s1 +:+ r) = String c2 (s2 +:+ r)) in Heq.
    injection Heq as -> Heq. f_equal. by apply IH.
Qed.

Lemma flag_message_inj key1 key2 :
  flag_message key1 = flag_message key2 -> key1 = key2.
Proof.
  unfold flag_message. intros Heq.
  apply String.app_inj, String.app_inj in Heq.
  by apply string_app_inj_r in Heq.
Qed.

Lemma flag_message_not_optional key :
  flag_message key <> optional_features_message.
Proof. intros Heq. apply (f_equal (String.get 0)) in Heq. discriminate Heq. Qed.

Lemma Object_keys_of_flags FEATURES :
  Object_keys (if truthy FEATURES then FEATURES else VObj [])
  = Some (flag_keys FEATURES).
Proof.
  destruct FEATURES as [| |[|]|n| |str|props|cls message|f]; try reflexivity.
  - cbn [truthy]. by destruct (n =? 0)%Z.
  - by destruct str.
Qed.

Lemma flag_keys_readable env FEATURES key :
  key ∈ flag_keys FEATURES -> is_Some (get_property env FEATURES key).
Proof.
  destruct FEATURES; cbn; try by eauto.
  all: by intros ?%elem_of_nil.
Qed.

Lemma stripped_flags_reports env fuel FEATURES known featuresWereStripped s :
  truthy featuresWereStripped = true ->
  debugFunctions s !! "warn" = Some (VFun _warn) ->
  _warnIfUsingStrippedFeatureFlags env (S fuel) FEATURES (VObj known)
    featuresWereStripped s
  = Return VUndefined
      (extend s
         (warn_handlers [VStr optional_features_message;
                         negate (ENV_ENABLE_OPTIONAL_FEATURES env);
                         stripped_options]
          :: (flag_report env FEATURES
                <$> filter (fun key => checked env (VObj known) key = true)
                      (flag_keys FEATURES)))).
Proof.
  intros Hstripped Hreg. unfold _warnIfUsingStrippedFeatureFlags.
  rewrite Hstripped, (warn_reports _ _ _ _ Hreg). cbn [bind].
  rewrite Object_keys_of_flags.
  rewrite warn_flags_reports; [|exact Hreg|apply flag_keys_readable].
  by rewrite extend_extend.
Qed.

Lemma emitted_stripped_flags env FEATURES known :
  emitted_warnings
    (warn_handlers [VStr optional_features_message;
                    negate (ENV_ENABLE_OPTIONAL_FEATURES env);
                    stripped_options]
     :: (flag_report env FEATURES
           <$> filter (fun key => checked env known key = true)
                 (flag_keys FEATURES)))
  = (optional_features_warning env
     ++ ((fun key => VStr (flag_message key)) <$> warned_keys env FEATURES known))%list.
Proof.
  unfold warned_keys. rewrite <- emitted_flag_reports.
  unfold emitted_warnings at 1, optional_features_warning.
  cbn [omap list_omap warning_raised].
  change (truthy (nth_arg 1 [VStr optional_features_message;
                             negate (ENV_ENABLE_OPTIONAL_FEATURES env);
                             stripped_options]))
    with (negb (truthy (ENV_ENABLE_OPTIONAL_FEATURES env))).
  by destruct (truthy (ENV_ENABLE_OPTIONAL_FEATURES env)).
Qed.

Lemma flag_warning_iff env FEATURES known key :
  key ∈ flag_keys FEATURES ->
  key <> "isEnabled" ->
  has_property env key known = Some true ->
  VStr (flag_message key)
    ∈ (optional_features_warning env
       ++ ((fun key => VStr (flag_message key)) <$> warned_keys env FEATURES known))%list
  <-> truthy (flag_value env FEATURES key) = true.
Proof.
  intros Hkey Hname Hknown.
  assert (Hchecked : checked env known key = true).
  { unfold checked. apply andb_true_intro. split.
    - apply negb_true_iff. by apply String.eqb_neq.
    - by apply bool_decide_eq_true_2. }
  rewrite elem_of_app. split.
  - intros [Hoptional|Hflag].
    + unfold optional_features_warning in Hoptional.
      destruct (truthy (ENV_ENABLE_OPTIONAL_FEATURES env)).
      * apply list_elem_of_singleton in Hoptional.
        destruct (flag_message_not_optional key). congruence.
      * by apply elem_of_nil in Hoptional.
    + apply list_elem_of_fmap in Hflag as (key' & Heq & Hwarned).
      assert (key = key') as <- by (apply flag_message_inj; congruence).
      apply list_elem_of_filter in Hwarned as [Hwarned _].
      by apply andb_prop in Hwarned as [_ Htruthy].
  - intros Htruthy. right. apply list_elem_of_fmap. exists key. split; [done|].
    apply list_elem_of_filter. split; [|done].
    by rewrite Hchecked, Htruthy.
Qed.

(** C3. With [featuresWereStripped] truthy and the handler chain of [./warn]
    registered, the check returns after extending the trace.  The warnings
    it raises are the one about the global switch, if that is on, and then
    one for each key of the flags that is not [isEnabled], is in
    [knownFeatures] and has a truthy value: for a key of the flags that is
    checked, the warning for it is raised if and only if its value is truthy.
    For the flags [{a: true, b: false}] with [a] and [b] known, the only
    per-flag warning is the one for [a]. *)
Theorem stripped_flags_warn_about_truthy_flags :
  (forall env fuel FEATURES known featuresWereStripped s,
      truthy featuresWereStripped = true ->
      debugFunctions s !! "warn" = Some (VFun _warn) ->
      exists new,
        _warnIfUsingStrippedFeatureFlags env (S fuel) FEATURES (VObj known)
          featuresWereStripped s
        = Return VUndefined (extend s new)
        /\ emitted_warnings new
           = (optional_features_warning env
              ++ ((fun key => VStr (flag_message key))
                    <$> warned_keys env FEATURES (VObj known)))%list
        /\ forall key,
             key ∈ flag_keys FEATURES ->
             key <> "isEnabled" ->
             has_property env key (VObj known) = Some true ->
             (VStr (flag_message key) ∈ emitted_warnings new
              <-> truthy (flag_value env FEATURES key) = true))
  /\ (forall env fuel s,
        debugFunctions s !! "warn" = Some (VFun _warn) ->
        exists new,
          _warnIfUsingStrippedFeatureFlags env (S fuel)
            (VObj [("a", VBool true); ("b", VBool false)])
            (VObj [("a", VBool true); ("b", VBool true)])
            (VBool true) s
          = Return VUndefined (extend s new)
          /\ emitted_warnings new
             = (optional_features_warning env ++ [VStr (flag_message "a")])%list).
Proof.
  split.
  - intros env fuel FEATURES known featuresWereStripped s Hstripped Hreg.
    eexists. split; [by apply stripped_flags_reports|].
    rewrite emitted_stripped_flags. split; [done|].
    intros key. apply flag_warning_iff.
  - intros env fuel s Hreg.
    eexists. split; [by apply stripped_flags_reports|].
    rewrite emitted_stripped_flags. f_equal.
Qed.

Lemma stripped_flags_warn_about_truthy_flags_witness :
  (exists new,
     _warnIfUsingStrippedFeatureFlags stripped_env 1
       (VObj [("isEnabled", VBool true); ("a", VNum 1); ("c", VBool true)])
       (VObj [("a", VNull)]) (VStr "yes") (development_state ∅)
     = Return VUndefined (extend (development_state ∅) new)
     /\ emitted_warnings new
        = [VStr optional_features_message; VStr (flag_message "a")])
  /\ (exists new,
        _warnIfUsingStrippedFeatureFlags sample_env 1
          (VObj [("a", VBool true); ("b", VBool false)])
          (VObj [("a", VBool true); ("b", VBool true)])
          (VBool true) (development_state ∅)
        = Return VUndefined (extend (development_state ∅) new)
        /\ emitted_warnings new = [VStr (flag_message "a")]).
Proof.
  split.
  - destruct (proj1 stripped_flags_warn_about_truthy_flags stripped_env 0
                (VObj [("isEnabled", VBool true); ("a", VNum 1); ("c", VBool true)])
                [("a", VNull)] (VStr "yes") (development_state ∅) eq_refl eq_refl)
      as (new & Hrun & Hemitted & _).
    exists new. exact (conj Hrun Hemitted).
  - exact (proj2 stripped_flags_warn_about_truthy_flags sample_env 0
             (development_state ∅) eq_refl).
Defined.

(** ** The call depth *)

(** A call that ends within some depth ends the same way within any larger
    one. *)
Lemma call_fuel_mono env fuel f this args s :
  call env fuel f this args s <> OutOfFuel ->
  call env (S fuel) f this args s = call env fuel f this args s.
Proof.
  revert f this args s.
  induction fuel as [|fuel IH]; intros f this args s Hends; [done|].
  assert (Happly : forall callee this args s,
             apply_with (call env fuel) callee this args s <> OutOfFuel ->
             apply_with (call env (S fuel)) callee this args s
             = apply_with (call env fuel) callee this args s).
  { intros [] ????; cbn [apply_with]; auto. }
  assert (Hseq : forall callee1 args1 callee2 this2 args2 s,
             bind (apply_with (call env fuel) callee1 VUndefined args1 s)
                  (fun _ s => apply_with (call env fuel) callee2 this2 args2 s)
             <> OutOfFuel ->
             bind (apply_with (call env (S fuel)) callee1 VUndefined args1 s)
                  (fun _ s => apply_with (call env (S fuel)) callee2 this2 args2 s)
             = bind (apply_with (call env fuel) callee1 VUndefined args1 s)
                    (fun _ s => apply_with (call env fuel) callee2 this2 args2 s)).
  { intros callee1 args1 callee2 this2 args2 s0 Hseq.
    rewrite Happly; [|by intros Hout; rewrite Hout in Hseq].
    destruct (apply_with (call env fuel) callee1 VUndefined args1 s0); cbn [bind] in *;
      auto. }
  destruct f as [id|name| | | | | |message options target|message target| | | | | |];
    try reflexivity.
  - (* deprecated_with_options *)
    change (bind (apply_with (call env (S fuel)) (member env "deprecate" s)
                    VUndefined [message; VBool false; options] s)
                 (fun _ s => apply_with (call env (S fuel)) target this args s)
            = bind (apply_with (call env fuel) (member env "deprecate" s)
                      VUndefined [message; VBool false; options] s)
                   (fun _ s => apply_with (call env fuel) target this args s)).
    by apply Hseq.
  - (* deprecated *)
    change (bind (apply_with (call env (S fuel)) (member env "deprecate" s)
                    VUndefined [message] s)
                 (fun _ s => apply_with (call env (S fuel)) target this args s)
            = bind (apply_with (call env fuel) (member env "deprecate" s)
                      VUndefined [message] s)
                   (fun _ s => apply_with (call env fuel) target this args s)).
    by apply Hseq.
  - (* fn_runInDebug *)
    change (bind (apply_with (call env (S fuel)) (nth_arg 0 args) VUndefined [] s)
                 (fun _ s => Return VUndefined s)
            = bind (apply_with (call env fuel) (nth_arg 0 args) VUndefined [] s)
                   (fun _ s => Return VUndefined s)).
    rewrite Happly; [done|].
    intros Hout. apply Hends. cbn [call]. by rewrite Hout.
  - (* inspector_hint *)
    set (hint := [VStr ("For more advanced debugging, install the Ember Inspector from "
                        +:+ ToString env (downloadURL env))]).
    change ((if inspector_missing env then
               bind (apply_with (call env (S fuel)) (member env "debug" s)
                       VUndefined hint s)
                    (fun _ s => Return VUndefined s)
             else Return VUndefined s)
            = (if inspector_missing env then
                 bind (apply_with (call env fuel) (member env "debug" s)
                         VUndefined hint s)
                      (fun _ s => Return VUndefined s)
               else Return VUndefined s)).
    destruct (inspector_missing env) eqn:Hmissing; [|done].
    rewrite Happly; [done|].
    intros Hout. apply Hends. cbn [call]. unfold debug_with.
    fold hint. by rewrite Hmissing, Hout.
Qed.

Lemma call_fuel_le env fuel fuel' f this args s :
  fuel <= fuel' ->
  call env fuel f this args s <> OutOfFuel ->
  call env fuel' f this args s = call env fuel f this args s.
Proof.
  induction 1 as [|fuel' _ IH]; [done|].
  intros Hends. rewrite call_fuel_mono; rewrite IH; done.
Qed.

(** The depth bound is not an artefact: once a wrapper made by
    [deprecateFunc] is itself registered as [deprecate], a call of
    [deprecate] never ends, whatever the depth. *)
Lemma deprecate_can_diverge env fuel message func args s :
  deprecate env fuel args
    (setDebugFunction "deprecate" (VFun (deprecated message func)) s)
  = OutOfFuel.
Proof.
  revert args. induction fuel as [|fuel IH]; intros args.
  - unfold deprecate, deprecate_with. by rewrite member_set.
  - unfold deprecate, deprecate_with in *. rewrite member_set in *.
    cbn [apply_with call] in *. unfold deprecate_with. rewrite member_set.
    cbn [apply_with]. by rewrite IH.
Qed.

(** * Further properties of the module *)

(** ** The registry, continued *)

Lemma install_lookup s ep :
  debugFunctions (install_development_functions s) !! entry_name ep
  = Some (VFun (development_implementation ep)).
Proof.
  unfold install_development_functions, setDebugFunction. cbn [debugFunctions].
  destruct ep; cbn [entry_name development_implementation];
    repeat first [ apply lookup_insert_eq | rewrite lookup_insert_ne by done ].
Qed.





(** X3. After the nine registrations of the body of the module every entry
    point is bound to its development implementation, whatever the registry
    held before; names other than those nine are left as they were, and so
    are the flags and the trace. *)
Theorem development_functions_installed s :
  (forall ep,
      debugFunctions (install_development_functions s) !! entry_name ep
      = Some (VFun (development_implementation ep)))
  /\ (forall name,
        (forall ep, name <> entry_name ep) ->
        debugFunctions (install_development_functions s) !! name
        = debugFunctions s !! name)
  /\ FEATURES (install_development_functions s) = FEATURES s
  /\ trace (install_development_functions s) = trace s.
Proof.
  split; [intros ep; apply install_lookup|].
  split; [|done].
  intros name Hother.
  unfold install_development_functions, setDebugFunction. cbn [debugFunctions].
  rewrite lookup_insert_ne by (intros <-; by apply (Hother ep_warn)).
  rewrite lookup_insert_ne by (intros <-; by apply (Hother ep_deprecate)).
  rewrite lookup_insert_ne by (intros <-; by apply (Hother ep_debugFreeze)).
  rewrite lookup_insert_ne by (intros <-; by apply (Hother ep_debugSeal)).
  rewrite lookup_insert_ne by (intros <-; by apply (Hother ep_runInDebug)).
  rewrite lookup_insert_ne by (intros <-; by apply (Hother ep_deprecateFunc)).
  rewrite lookup_insert_ne by (intros <-; by apply (Hother ep_info)).
  rewrite lookup_insert_ne by (intros <-; by apply (Hother ep_debug)).
  by rewrite lookup_insert_ne by (intros <-; by apply (Hother ep_assert)).
Qed.

(** ** assert, continued *)



(** ** What a call can change *)

Lemma grows_refl s : grows s s.
Proof. by repeat split. Qed.

Lemma grows_trans s1 s2 s3 : grows s1 s2 -> grows s2 s3 -> grows s1 s3.
Proof.
  intros (Hreg1 & Hflags1 & Htrace1) (Hreg2 & Hflags2 & Htrace2).
  repeat split; [congruence|congruence|by etrans].
Qed.

Lemma grows_log e s : grows s (log e s).
Proof. repeat split. by apply prefix_app_r. Qed.

Lemma grows_extend s new : grows s (extend s new).
Proof. repeat split. by apply prefix_app_r. Qed.

Lemma keeps_after s s' o : grows s s' -> keeps s' o -> keeps s o.
Proof. destruct o; cbn; eauto using grows_trans. Qed.

Lemma keeps_bind s o k :
  keeps s o -> (forall v s', keeps s' (k v s')) -> keeps s (bind o k).
Proof. destruct o; cbn; eauto using keeps_after. Qed.

Lemma keeps_apply_with callf callee this args s :
  (forall f this args s, keeps s (callf f this args s)) ->
  keeps s (apply_with callf callee this args s).
Proof. intros Hcall. destruct callee; cbn; auto using grows_refl. Qed.

Lemma call_keeps env :
  (forall id this args s, keeps s (host_call env id this args s)) ->
  forall fuel f this args s, keeps s (call env fuel f this args s).
Proof.
  intros Hhost. induction fuel as [|fuel IH]; intros f this args s; [done|].
  destruct f as [id|name| | | | | |message options target|message target| | | | | |];
    cbn [call].
  - apply Hhost.
  - apply grows_refl.
  - apply grows_refl.
  - destruct (truthy _); apply grows_refl.
  - apply grows_log.
  - apply grows_log.
  - destruct args as [|a0 [|a1 [|a2 [|a3 rest]]]]; apply grows_refl.
  - apply keeps_bind; [|intros; by apply keeps_apply_with].
    by apply keeps_apply_with.
  - apply keeps_bind; [|intros; by apply keeps_apply_with].
    by apply keeps_apply_with.
  - apply keeps_bind; [by apply keeps_apply_with|]. intros; apply grows_refl.
  - apply grows_log.
  - apply grows_log.
  - apply grows_log.
  - apply grows_log.
  - destruct (inspector_missing env); [|apply grows_refl].
    apply keeps_bind; [by apply keeps_apply_with|]. intros; apply grows_refl.
Qed.

Lemma enter_keeps env ep fuel args s :
  (forall f this args s, keeps s (call env fuel f this args s)) ->
  keeps s (enter env ep fuel args s).
Proof.
  intros Hcall. destruct ep; cbn [enter]; unfold_entry; by apply keeps_apply_with.
Qed.

Lemma warn_flags_keeps env fuel FEATURES knownFeatures keys s :
  (forall f this args s, keeps s (call env fuel f this args s)) ->
  keeps s (warn_flags env fuel FEATURES knownFeatures keys s).
Proof.
  intros Hcall. revert s.
  induction keys as [|key keys IH]; intros s; cbn [warn_flags]; [apply grows_refl|].
  destruct (String.eqb key "isEnabled"); [apply IH|].
  destruct (has_property env key knownFeatures) as [[|]|];
    [|apply IH|apply grows_refl].
  destruct (get_property env FEATURES key); [|apply grows_refl].
  apply keeps_bind; [|intros; apply IH].
  unfold_entry. by apply keeps_apply_with.
Qed.

(** X5. Provided the functions of the embedding application leave the
    registry and the flag object alone and only add to the trace, so does
    every function of the module at every depth, and so do the entry
    points and the feature-flag check: nothing but [setDebugFunction]
    changes what is registered, and nothing reported is ever taken back. *)
Theorem calls_keep_registry_and_flags env fuel :
  (forall id this args s, keeps s (host_call env id this args s)) ->
  (forall f this args s, keeps s (call env fuel f this args s))
  /\ (forall ep args s, keeps s (enter env ep fuel args s))
  /\ (forall FEATURES knownFeatures featuresWereStripped s,
        keeps s (_warnIfUsingStrippedFeatureFlags env fuel FEATURES knownFeatures
                   featuresWereStripped s)).
Proof.
  intros Hhost.
  pose proof (call_keeps env Hhost fuel) as Hcall.
  split; [exact Hcall|]. split; [intros; by apply enter_keeps|].
  intros FEATURES knownFeatures featuresWereStripped s.
  unfold _warnIfUsingStrippedFeatureFlags.
  destruct (truthy featuresWereStripped); [|apply grows_refl].
  apply keeps_bind; [unfold_entry; by apply keeps_apply_with|].
  intros _ s'. destruct (Object_keys _); [|apply grows_refl].
  by apply warn_flags_keeps.
Qed.

Lemma calls_keep_registry_and_flags_witness :
  keeps (development_state ∅)
    (call sample_env 3 (deprecated (VStr "old") (VFun (Host 1)))
       VUndefined [VNum 2] (development_state ∅)).
Proof.
  apply (calls_keep_registry_and_flags sample_env 3).
  intros id this args s. apply grows_refl.
Defined.

(** ** deprecateFunc, continued *)

Lemma deprecated_step env fuel message target this args s :
  call env (S fuel) (deprecated message target) this args s
  = bind (deprecate env fuel [message] s)
         (fun _ s' => apply_with (call env fuel) target this args s').
Proof. reflexivity. Qed.

Lemma deprecate_reports env fuel args s :
  debugFunctions s !! "deprecate" = Some (VFun _deprecate) ->
  deprecate env (S fuel) args s
  = Return VUndefined (extend s [deprecate_handlers args]).
Proof. intros Hreg. unfold_entry. by rewrite (member_own _ _ _ _ Hreg). Qed.

(** X6. [deprecateFunc(message)] without a target still returns a wrapper.
    With the handler chain of [./deprecate] registered, calling that wrapper
    first reports the deprecation and then throws a TypeError, so the report
    stays in the trace. *)
Theorem deprecateFunc_without_target env fuel fuel' this0 message this args s :
  debugFunctions s !! "deprecate" = Some (VFun _deprecate) ->
  exists wrapper what,
    call env (S fuel) fn_deprecateFunc this0 [message] s = Return (VFun wrapper) s
    /\ call env (S (S fuel')) wrapper this args s
       = Throw (VError TypeError what) (extend s [deprecate_handlers [message]]).
Proof.
  intros Hreg. eexists _, _. split; [reflexivity|].
  rewrite deprecated_step, (deprecate_reports _ _ _ _ Hreg). reflexivity.
Qed.

Lemma deprecateFunc_without_target_witness :
  exists wrapper what,
    call sample_env 1 fn_deprecateFunc VUndefined [VStr "gone"] (development_state ∅)
    = Return (VFun wrapper) (development_state ∅)
    /\ call sample_env 2 wrapper VNull [VNum 1] (development_state ∅)
       = Throw (VError TypeError what)
           (extend (development_state ∅) [deprecate_handlers [VStr "gone"]]).
Proof.
  exact (deprecateFunc_without_target sample_env 0 0 VUndefined (VStr "gone")
           VNull [VNum 1] (development_state ∅) eq_refl).
Defined.

(** X7. Wrappers nest: with the development functions registered, the
    wrapper of a wrapper reports the outer deprecation, then the inner one,
    and then runs the innermost function with the caller's [this] and
    arguments; its outcome is that function's outcome. *)
Theorem nested_deprecations env fuel message1 message2 fn s :
  debugFunctions s !! "deprecate" = Some (VFun _deprecate) ->
  debugFunctions s !! "deprecateFunc" = Some (VFun fn_deprecateFunc) ->
  exists inner outer,
    deprecateFunc env (S fuel) [message2; VFun fn] s = Return inner s
    /\ deprecateFunc env (S fuel) [message1; inner] s = Return (VFun outer) s
    /\ forall fuel' this args,
         call env (S (S fuel')) outer this args s
         = call env fuel' fn this args
             (extend s [deprecate_handlers [message1];
                        deprecate_handlers [message2]]).
Proof.
  intros Hdeprecate HdeprecateFunc.
  exists (VFun (deprecated message2 (VFun fn))),
         (deprecated message1 (VFun (deprecated message2 (VFun fn)))).
  unfold deprecateFunc. rewrite (member_own _ _ _ _ HdeprecateFunc).
  split; [reflexivity|]. split; [reflexivity|].
  intros fuel' this args.
  rewrite deprecated_step, (deprecate_reports _ _ _ _ Hdeprecate).
  cbn [bind apply_with]. rewrite deprecated_step.
  destruct fuel' as [|fuel'].
  { unfold_entry.
    by rewrite (member_own env "deprecate" (VFun _deprecate)) by exact Hdeprecate. }
  rewrite deprecate_reports by exact Hdeprecate.
  cbn [bind apply_with]. by rewrite extend_extend.
Qed.

Lemma nested_deprecations_witness :
  exists inner outer,
    deprecateFunc sample_env 1 [VStr "inner"; VFun (Host 0)] (development_state ∅)
    = Return inner (development_state ∅)
    /\ deprecateFunc sample_env 1 [VStr "outer"; inner] (development_state ∅)
       = Return (VFun outer) (development_state ∅)
    /\ call sample_env 3 outer (VStr "receiver") [VNum 1] (development_state ∅)
       = Return (VObj [("this", VStr "receiver"); ("0", VNum 1)])
           (extend (development_state ∅)
              [deprecate_handlers [VStr "outer"]; deprecate_handlers [VStr "inner"]]).
Proof.
  destruct (nested_deprecations sample_env 0 (VStr "outer") (VStr "inner") (Host 0)
              (development_state ∅) eq_refl eq_refl)
    as (inner & outer & Hinner & Houter & Hcall).
  exists inner, outer. split; [exact Hinner|]. split; [exact Houter|].
  exact (Hcall 1 (VStr "receiver") [VNum 1]).
Defined.

(** X8. A wrapper consults the registry when it is called, not when it is
    made: once a function with an empty body is registered as [deprecate],
    a wrapper made earlier reports nothing and behaves as its target one
    level deeper. *)
Theorem wrapper_uses_deprecate_of_call_time env fuel this0 message fn s0 :
  exists wrapper,
    call env (S fuel) fn_deprecateFunc this0 [message; VFun fn] s0
    = Return (VFun wrapper) s0
    /\ forall fuel' name this args s,
         call env (S fuel') wrapper this args
           (setDebugFunction "deprecate" (VFun (Noop name)) s)
         = call env fuel' fn this args
             (setDebugFunction "deprecate" (VFun (Noop name)) s).
Proof.
  eexists. split; [reflexivity|]. intros fuel' name this args s.
  rewrite deprecated_step. unfold_entry. rewrite member_set.
  by destruct fuel'.
Qed.

(** X9. A deprecation that throws keeps the target from running: when the
    call of [deprecate(message)] throws, the wrapper throws the same value
    in the same state and its target is not called. *)
Theorem failed_deprecation_skips_target env fuel this0 message fn this args s e s' :
  deprecate env fuel [message] s = Throw e s' ->
  exists wrapper,
    call env (S fuel) fn_deprecateFunc this0 [message; VFun fn] s
    = Return (VFun wrapper) s
    /\ call env (S fuel) wrapper this args s = Throw e s'.
Proof.
  intros Hthrow. exists (deprecated message (VFun fn)). split; [reflexivity|].
  by rewrite deprecated_step, Hthrow.
Qed.

Lemma failed_deprecation_skips_target_witness :
  exists wrapper,
    call sample_env 2 fn_deprecateFunc VUndefined [VStr "old"; VFun (Host 0)]
      (setDebugFunction "deprecate" (VFun fn_assert) (development_state ∅))
    = Return (VFun wrapper)
        (setDebugFunction "deprecate" (VFun fn_assert) (development_state ∅))
    /\ call sample_env 2 wrapper VUndefined []
         (setDebugFunction "deprecate" (VFun fn_assert) (development_state ∅))
       = Throw (new_EmberError "Assertion Failed: old")
           (setDebugFunction "deprecate" (VFun fn_assert) (development_state ∅)).
Proof.
  exact (failed_deprecation_skips_target sample_env 1 VUndefined (VStr "old") (Host 0)
           VUndefined []
           (setDebugFunction "deprecate" (VFun fn_assert) (development_state ∅))
           (new_EmberError "Assertion Failed: old")
           (setDebugFunction "deprecate" (VFun fn_assert) (development_state ∅))
           eq_refl).
Defined.

(** X10. Registering as [deprecate] a wrapper that [deprecateFunc] made
    turns every call of [deprecate] into a recursion without end: no depth
    suffices for the call to return or throw. *)
Theorem registered_wrapper_recurses env fuel fuel' this0 message func args s :
  exists wrapper,
    call env (S fuel) fn_deprecateFunc this0 [message; func] s
    = Return (VFun wrapper) s
    /\ deprecate env fuel' args (setDebugFunction "deprecate" (VFun wrapper) s)
       = OutOfFuel.
Proof.
  eexists. split; [reflexivity|]. apply deprecate_can_diverge.
Qed.

(** ** The feature-flag check, continued *)

Lemma falsy_flags_have_no_keys FEATURES :
  truthy FEATURES = false -> flag_keys FEATURES = [].
Proof.
  destruct FEATURES as [| |[|]|n| |str|props|cls message|f]; try done.
  by destruct str.
Qed.

(** X11. With [featuresWereStripped] truthy, the handler chain of [./warn]
    registered and a falsy flags argument (undefined, null, ...), the check
    makes the one call of [warn] about the global switch and returns,
    without looking at [knownFeatures], which may then be anything. *)
Theorem stripped_check_without_flags env fuel FEATURES knownFeatures
    featuresWereStripped s :
  truthy featuresWereStripped = true ->
  debugFunctions s !! "warn" = Some (VFun _warn) ->
  truthy FEATURES = false ->
  _warnIfUsingStrippedFeatureFlags env (S fuel) FEATURES knownFeatures
    featuresWereStripped s
  = Return VUndefined (extend s [optional_features_report env]).
Proof.
  intros Hstripped Hreg Hfalsy. unfold _warnIfUsingStrippedFeatureFlags.
  rewrite Hstripped, (warn_reports _ _ _ _ Hreg). cbn [bind].
  by rewrite Object_keys_of_flags, (falsy_flags_have_no_keys _ Hfalsy).
Qed.

Lemma stripped_check_without_flags_witness :
  _warnIfUsingStrippedFeatureFlags stripped_env 1 VUndefined VUndefined (VBool true)
    (development_state ∅)
  = Return VUndefined
      (extend (development_state ∅)
         [warn_handlers [VStr optional_features_message; VBool false;
                         stripped_options]]).
Proof.
  exact (stripped_check_without_flags stripped_env 0 VUndefined VUndefined (VBool true)
           (development_state ∅) eq_refl eq_refl eq_refl).
Defined.

Lemma has_property_primitive env key v :
  primitive v -> has_property env key v = None.
Proof. by destruct v. Qed.

Lemma warn_flags_primitive env fuel FEATURES knownFeatures keys key s :
  primitive knownFeatures ->
  key ∈ keys ->
  key <> "isEnabled" ->
  exists what,
    warn_flags env fuel FEATURES knownFeatures keys s
    = Throw (VError TypeError what) s.
Proof.
  intros Hprimitive Hkey Hname.
  induction keys as [|key' keys IH]; [by apply elem_of_nil in Hkey|].
  cbn [warn_flags]. destruct (String.eqb key' "isEnabled") eqn:Hkey'.
  - apply String.eqb_eq in Hkey'. apply IH.
    apply elem_of_cons in Hkey as [->|Hkey]; [by destruct Hname|done].
  - rewrite (has_property_primitive _ _ _ Hprimitive). by eexists.
Qed.

(** X12. When [knownFeatures] is not an object and the flags have a key
    other than [isEnabled], the check throws a TypeError at the first such
    key: by then [warn] has been called once, about the global switch, and
    never about a flag. *)
Theorem stripped_check_needs_known_features env fuel FEATURES knownFeatures
    featuresWereStripped key s :
  truthy featuresWereStripped = true ->
  debugFunctions s !! "warn" = Some (VFun _warn) ->
  primitive knownFeatures ->
  key ∈ flag_keys FEATURES ->
  key <> "isEnabled" ->
  exists what,
    _warnIfUsingStrippedFeatureFlags env (S fuel) FEATURES knownFeatures
      featuresWereStripped s
    = Throw (VError TypeError what) (extend s [optional_features_report env]).
Proof.
  intros Hstripped Hreg Hprimitive Hkey Hname.
  unfold _warnIfUsingStrippedFeatureFlags.
  rewrite Hstripped, (warn_reports _ _ _ _ Hreg). cbn [bind].
  rewrite Object_keys_of_flags. by eapply warn_flags_primitive.
Qed.

Lemma stripped_check_needs_known_features_witness :
  exists what,
    _warnIfUsingStrippedFeatureFlags stripped_env 1
      (VObj [("isEnabled", VBool true); ("a", VBool true)]) VUndefined (VBool true)
      (development_state ∅)
    = Throw (VError TypeError what)
        (extend (development_state ∅) [optional_features_report stripped_env]).
Proof.
  refine (stripped_check_needs_known_features stripped_env 0
            (VObj [("isEnabled", VBool true); ("a", VBool true)]) VUndefined
            (VBool true) "a" (development_state ∅) eq_refl eq_refl I _ _).
  - right. left.
  - discriminate.
Defined.

(** X13. With [featuresWereStripped] truthy and the handler chain of
    [./warn] registered, the check calls [warn] once about the global
    switch and then once for every key of the flags that is not [isEnabled]
    and is in [knownFeatures], in the order of the keys and also when the
    flag is falsy: the negation of the flag is passed as the test, and the
    same options object each time. *)
Theorem stripped_check_calls_warn_per_checked_key env fuel FEATURES known
    featuresWereStripped s :
  truthy featuresWereStripped = true ->
  debugFunctions s !! "warn" = Some (VFun _warn) ->
  _warnIfUsingStrippedFeatureFlags env (S fuel) FEATURES (VObj known)
    featuresWereStripped s
  = Return VUndefined
      (extend s
         (optional_features_report env
          :: (flag_report env FEATURES
                <$> filter (fun key => checked env (VObj known) key = true)
                      (flag_keys FEATURES)))).
Proof. apply stripped_flags_reports. Qed.

Lemma stripped_check_calls_warn_per_checked_key_witness :
  _warnIfUsingStrippedFeatureFlags stripped_env 1
    (VObj [("b", VBool false); ("isEnabled", VBool true); ("z", VNum 1);
           ("a", VStr "on")])
    (VObj [("a", VNull); ("b", VNull); ("isEnabled", VNull)]) (VNum 1)
    (development_state ∅)
  = Return VUndefined
      (extend (development_state ∅)
         [warn_handlers [VStr optional_features_message; VBool false; stripped_options];
          warn_handlers [VStr (flag_message "b"); VBool true; stripped_options];
          warn_handlers [VStr (flag_message "a"); VBool false; stripped_options]]).
Proof.
  exact (stripped_check_calls_warn_per_checked_key stripped_env 0
           (VObj [("b", VBool false); ("isEnabled", VBool true); ("z", VNum 1);
                  ("a", VStr "on")])
           [("a", VNull); ("b", VNull); ("isEnabled", VNull)] (VNum 1)
           (development_state ∅) eq_refl eq_refl).
Defined.

Lemma warn_flags_silent env fuel name FEATURES known keys s :
  debugFunctions s !! "warn" = Some (VFun (Noop name)) ->
  (forall key, key ∈ keys -> is_Some (get_property env FEATURES key)) ->
  warn_flags env (S fuel) FEATURES (VObj known) keys s = Return VUndefined s.
Proof.
  intros Hreg. induction keys as [|key keys IH]; intros Hget; [done|].
  assert (Hrest : warn_flags env (S fuel) FEATURES (VObj known) keys s
                  = Return VUndefined s).
  { apply IH. intros k Hk. apply Hget. by right. }
  cbn [warn_flags]. destruct (String.eqb key "isEnabled"); [done|].
  cbn [has_property]. destruct (_ || _); [|done].
  destruct (Hget key) as [flag ->]; [by left|].
  unfold warn. by rewrite (member_own _ _ _ _ Hreg).
Qed.

(** X14. While a function with an empty body is registered as [warn], as in
    the object literal, the check is silent: for any flags and any object of
    known features it returns in the state it was called in, stripped or
    not. *)
Theorem stripped_check_is_silent_without_warn env fuel name FEATURES known
    featuresWereStripped s :
  debugFunctions s !! "warn" = Some (VFun (Noop name)) ->
  _warnIfUsingStrippedFeatureFlags env (S fuel) FEATURES (VObj known)
    featuresWereStripped s
  = Return VUndefined s.
Proof.
  intros Hreg. unfold _warnIfUsingStrippedFeatureFlags.
  destruct (truthy featuresWereStripped); [|done].
  unfold warn at 1. rewrite (member_own _ _ _ _ Hreg). cbn [apply_with call bind].
  rewrite Object_keys_of_flags.
  apply (warn_flags_silent _ _ name); [done|apply flag_keys_readable].
Qed.

Lemma stripped_check_is_silent_without_warn_witness :
  _warnIfUsingStrippedFeatureFlags stripped_env 1
    (VObj [("a", VBool true)]) (VObj [("a", VBool true)]) (VBool true)
    (initial_state ∅)
  = Return VUndefined (initial_state ∅).
Proof.
  exact (stripped_check_is_silent_without_warn stripped_env 0 "warn"
           (VObj [("a", VBool true)]) [("a", VBool true)] (VBool true)
           (initial_state ∅) eq_refl).
Defined.

(** ** The probe and the body of the module *)

(** X15. The probe restores the flag object: when the flags have no entry
    for the canary, the state after the probe is the state before it, and
    probing a second time changes nothing more. *)
Theorem canary_probe_restores_flags env s :
  FEATURES s !! canary = None ->
  (features_stripped_probe env s).2 = s
  /\ (features_stripped_probe env (features_stripped_probe env s).2).2
     = (features_stripped_probe env s).2.
Proof.
  intros Hfresh.
  assert (Hsame : (features_stripped_probe env s).2 = s).
  { destruct s as [registry flags reports]. cbn in Hfresh.
    unfold features_stripped_probe, delete_feature, set_feature. cbn.
    f_equal. by apply delete_insert_id. }
  split; [exact Hsame|]. by rewrite !Hsame.
Qed.

Lemma canary_probe_restores_flags_witness :
  (features_stripped_probe sample_env
     (set_feature "ember-htmlbars" (VBool true) (development_state ∅))).2
  = set_feature "ember-htmlbars" (VBool true) (development_state ∅).
Proof.
  exact (proj1 (canary_probe_restores_flags sample_env
                  (set_feature "ember-htmlbars" (VBool true) (development_state ∅))
                  eq_refl)).
Defined.

(** X16. When [isTesting()] is true the body of the module only installs
    the development functions: the flags are not probed, nothing is
    reported and no listener is registered, at any depth. *)
Theorem module_init_when_testing env fuel flags :
  isTesting env = true ->
  module_init env fuel flags = Return VUndefined (development_state flags).
Proof. intros Htesting. unfold module_init. by rewrite Htesting. Qed.

Lemma module_init_when_testing_witness :
  module_init testing_env 0 ∅ = Return VUndefined (development_state ∅).
Proof. exact (module_init_when_testing testing_env 0 ∅ eq_refl). Defined.

(** X17. Outside testing, in a build whose query reports the canary as
    enabled, the body of the module calls [warn] not once, whatever the
    flags of the environment: it returns with the development functions
    installed, the canary removed and at most the load listener in the
    trace. *)
Theorem module_init_unstripped_build env fuel flags :
  isTesting env = false ->
  truthy (isFeatureEnabled env canary
            (set_feature canary (VBool true) (development_state flags))) = true ->
  module_init env fuel flags
  = Return VUndefined
      (let s := delete_feature canary
                  (set_feature canary (VBool true) (development_state flags)) in
       if has_window_addEventListener env && (isFirefox env || isChrome env)
       then log load_listener s else s).
Proof.
  intros Htesting Henabled. unfold module_init, features_stripped_probe.
  fold (development_state flags). rewrite Htesting, Henabled. cbn [negb].
  unfold _warnIfUsingStrippedFeatureFlags. cbn [truthy bind].
  by destruct (has_window_addEventListener env && (isFirefox env || isChrome env)).
Qed.

Lemma module_init_unstripped_build_witness :
  module_init sample_env 0 ∅
  = Return VUndefined
      (log load_listener
         (delete_feature canary
            (set_feature canary (VBool true) (development_state ∅)))).
Proof. exact (module_init_unstripped_build sample_env 0 ∅ eq_refl eq_refl). Defined.

Lemma emitted_warnings_app new1 new2 :
  emitted_warnings (new1 ++ new2)
  = (emitted_warnings new1 ++ emitted_warnings new2)%list.
Proof. apply omap_app. Qed.

(** X18. Outside testing, in a build whose query reports the canary as
    disabled, and with an object of default features, the body of the
    module returns with the development functions installed and the canary
    removed from the flags, after raising the warning about the global
    switch, if on, and one warning for each truthy, known flag of
    [ENV.FEATURES] other than [isEnabled]. *)
Theorem module_init_stripped_build env fuel flags known :
  isTesting env = false ->
  truthy (isFeatureEnabled env canary
            (set_feature canary (VBool true) (development_state flags))) = false ->
  DEFAULT_FEATURES env = VObj known ->
  exists s',
    module_init env (S fuel) flags = Return VUndefined s'
    /\ debugFunctions s' = debugFunctions (development_state flags)
    /\ FEATURES s' = delete canary flags
    /\ emitted_warnings (trace s')
       = (optional_features_warning env
          ++ ((fun key => VStr (flag_message key))
                <$> warned_keys env (ENV_FEATURES env) (VObj known)))%list.
Proof.
  intros Htesting Hdisabled Hknown. unfold module_init, features_stripped_probe.
  fold (development_state flags). rewrite Htesting, Hdisabled, Hknown. cbn [negb].
  rewrite stripped_flags_reports; [|done|apply (install_lookup _ ep_warn)].
  cbn [bind]. unfold runningNonEmberDebugJS.
  destruct (has_window_addEventListener env && (isFirefox env || isChrome env));
    eexists; (split; [reflexivity|]); (split; [reflexivity|]);
    (split; [apply delete_insert_eq|]);
    cbn [trace extend log delete_feature set_feature];
    change (trace (development_state flags)) with (@nil event);
    rewrite ?emitted_warnings_app, emitted_stripped_flags; cbn [app];
    [by rewrite app_nil_r|done].
Qed.

Lemma module_init_stripped_build_witness :
  exists s',
    module_init stripped_env 1 ∅ = Return VUndefined s'
    /\ debugFunctions s' = debugFunctions (development_state ∅)
    /\ FEATURES s' = delete canary ∅
    /\ emitted_warnings (trace s')
       = [VStr optional_features_message; VStr (flag_message "a")].
Proof.
  exact (module_init_stripped_build stripped_env 0 ∅
           [("a", VBool true); ("b", VBool true)] eq_refl eq_refl eq_refl).
Defined.

Lemma only_warns_refl s v : only_warns s (Return v s).
Proof. exists []. by rewrite extend_nil. Qed.

Lemma only_warns_throw s e : only_warns s (Throw e s).
Proof. exists []. by rewrite extend_nil. Qed.

Lemma only_warns_bind s o k :
  only_warns s o ->
  (forall v new, only_warns (extend s new) (k v (extend s new))) ->
  only_warns s (bind o k).
Proof.
  destruct o as [v s1|e s1|]; cbn [bind]; [|done|done].
  intros (new1 & -> & Hnew1) Hk. specialize (Hk v new1).
  destruct (k v (extend s new1)) as [v2 s2|e2 s2|]; [| |done];
    destruct Hk as (new2 & -> & Hnew2); exists (new1 ++ new2)%list;
    by rewrite extend_extend, Forall_app.
Qed.

Lemma warn_only_warns env fuel args s :
  debugFunctions s !! "warn" = Some (VFun _warn) ->
  only_warns s (warn env fuel args s).
Proof.
  intros Hreg. destruct fuel as [|fuel].
  - unfold warn. by rewrite (member_own _ _ _ _ Hreg).
  - rewrite (warn_reports _ _ _ _ Hreg). exists [warn_handlers args].
    split; [done|]. by repeat constructor.
Qed.

Lemma warn_flags_only_warns env fuel FEATURES knownFeatures keys s :
  debugFunctions s !! "warn" = Some (VFun _warn) ->
  only_warns s (warn_flags env fuel FEATURES knownFeatures keys s).
Proof.
  revert s. induction keys as [|key keys IH]; intros s Hreg; cbn [warn_flags].
  - apply only_warns_refl.
  - destruct (String.eqb key "isEnabled"); [by apply IH|].
    destruct (has_property env key knownFeatures) as [[|]|];
      [|by apply IH|apply only_warns_throw].
    destruct (get_property env FEATURES key); [|apply only_warns_throw].
    apply only_warns_bind; [by apply warn_only_warns|].
    intros _ new. by apply IH.
Qed.

Lemma check_only_warns env fuel FEATURES knownFeatures featuresWereStripped s :
  debugFunctions s !! "warn" = Some (VFun _warn) ->
  only_warns s (_warnIfUsingStrippedFeatureFlags env fuel FEATURES knownFeatures
                  featuresWereStripped s).
Proof.
  intros Hreg. unfold _warnIfUsingStrippedFeatureFlags.
  destruct (truthy featuresWereStripped); [|apply only_warns_refl].
  apply only_warns_bind; [by apply warn_only_warns|].
  intros _ new. destruct (Object_keys _); [|apply only_warns_throw].
  by apply warn_flags_only_warns.
Qed.

Lemma load_listener_is_no_warning new :
  Forall is_warn_report new -> load_listener ∉ new.
Proof.
  intros Hnew Hin. rewrite Forall_forall in Hnew. exact (Hnew _ Hin).
Qed.

(** X19. When the body of the module returns, the load listener has been
    registered if and only if the module is not under test and the window
    has [addEventListener] in Firefox or Chrome; and whenever it has been
    registered, the address the listener will print is defined. *)
Theorem load_listener_registration env fuel flags v s' :
  module_init env fuel flags = Return v s' ->
  (load_listener ∈ trace s'
   <-> isTesting env = false
       /\ has_window_addEventListener env && (isFirefox env || isChrome env) = true)
  /\ (load_listener ∈ trace s' -> downloadURL env <> VUndefined).
Proof.
  intros Hinit.
  assert (Hiff : load_listener ∈ trace s'
                 <-> isTesting env = false
                     /\ has_window_addEventListener env
                        && (isFirefox env || isChrome env) = true).
  { revert Hinit. unfold module_init. fold (development_state flags).
    destruct (isTesting env); cbn [negb bind].
    { unfold runningNonEmberDebugJS. intros [= <- <-].
      split; [by intros ?%elem_of_nil|by intros [? _]]. }
    destruct (features_stripped_probe env (development_state flags))
      as [featuresWereStripped s1] eqn:Hprobe.
    assert (Hs1 : s1 = delete_feature canary
                         (set_feature canary (VBool true) (development_state flags))).
    { unfold features_stripped_probe in Hprobe. by injection Hprobe as _ <-. }
    pose proof (check_only_warns env fuel (ENV_FEATURES env) (DEFAULT_FEATURES env)
                  (VBool featuresWereStripped) s1) as Honly.
    destruct (_warnIfUsingStrippedFeatureFlags env fuel (ENV_FEATURES env)
                (DEFAULT_FEATURES env) (VBool featuresWereStripped) s1)
      as [v1 s2|e1 s2|]; cbn [bind]; [|done|done].
    destruct Honly as (new & -> & Hnew).
    { subst s1. apply (install_lookup _ ep_warn). }
    unfold runningNonEmberDebugJS.
    destruct (has_window_addEventListener env && (isFirefox env || isChrome env));
      cbn [bind]; intros [= <- <-]; subst s1;
      cbn [trace extend log delete_feature set_feature];
      change (trace (development_state flags)) with (@nil event); cbn [app].
    - split; [done|]. intros _. apply elem_of_app. right. by left.
    - split; [|by intros [_ ?]].
      intros Hin. by apply load_listener_is_no_warning in Hin. }
  split; [exact Hiff|].
  intros Hin. apply Hiff in Hin as [_ Hbrowser].
  apply andb_prop in Hbrowser as [_ Hbrowser]. unfold downloadURL.
  destruct (isChrome env); [done|]. by destruct (isFirefox env).
Qed.

Lemma load_listener_registration_witness :
  (load_listener
     ∈ trace (log load_listener
                (delete_feature canary
                   (set_feature canary (VBool true) (development_state ∅))))
   <-> isTesting sample_env = false
       /\ has_window_addEventListener sample_env
          && (isFirefox sample_env || isChrome sample_env) = true)
  /\ (load_listener
        ∈ trace (log load_listener
                   (delete_feature canary
                      (set_feature canary (VBool true) (development_state ∅))))
      -> downloadURL sample_env <> VUndefined).
Proof.
  exact (load_listener_registration sample_env 0 ∅ VUndefined
           (log load_listener
              (delete_feature canary
                 (set_feature canary (VBool true) (development_state ∅))))
           eq_refl).
Defined.

(** X20. The load listener, run in Firefox or Chrome with the development
    [debug] registered: if the inspector is missing it writes one line to
    the sink, ["DEBUG: For more advanced debugging, install the Ember
    Inspector from "] followed by the address of the Chrome store when
    [isChrome] holds and of the Firefox store otherwise; if the inspector is
    present it does nothing.  Its arguments and [this] play no part. *)
Theorem inspector_hint_output env fuel this args s :
  debugFunctions s !! "debug" = Some (VFun fn_debug) ->
  isFirefox env || isChrome env = true ->
  call env (S (S fuel)) inspector_hint this args s
  = Return VUndefined
      (if inspector_missing env then
         extend s
           [Logger_debug
              ("DEBUG: For more advanced debugging, install the Ember Inspector from "
               +:+ (if isChrome env then chrome_store else firefox_store))]
       else s).
Proof.
  intros Hreg Hbrowser.
  change (call env (S (S fuel)) inspector_hint this args s)
    with (if inspector_missing env then
            bind (debug env (S fuel)
                    [VStr ("For more advanced debugging, install the Ember Inspector from "
                           +:+ ToString env (downloadURL env))] s)
                 (fun _ s => Return VUndefined s)
          else Return VUndefined s).
  destruct (inspector_missing env); [|done].
  unfold_entry. rewrite (member_own _ _ _ _ Hreg).
  unfold downloadURL. destruct (isChrome env); [done|].
  rewrite orb_false_r in Hbrowser. by rewrite Hbrowser.
Qed.

Lemma inspector_hint_output_witness :
  call testing_env 2 inspector_hint VUndefined [] (development_state ∅)
  = Return VUndefined
      (extend (development_state ∅)
         [Logger_debug
            ("DEBUG: For more advanced debugging, install the Ember Inspector from "
             +:+ firefox_store)]).
Proof.
  exact (inspector_hint_output testing_env 0 VUndefined [] (development_state ∅)
           eq_refl eq_refl).
Defined.

(** ** The object literal and the development functions *)

(** X21. While the registry holds the members of the object literal, every
    entry point other than [deprecateFunc] and [runInDebug] returns
    [undefined] without any effect, whatever its arguments, and
    [deprecateFunc] returns its last argument, or [undefined] when it has
    none. *)
Theorem initial_entry_points_do_nothing env ep fuel args flags reports :
  ep <> ep_deprecateFunc ->
  ep <> ep_runInDebug ->
  enter env ep (S fuel) args
    {| debugFunctions := initial_debugFunctions; FEATURES := flags; trace := reports |}
  = Return VUndefined
      {| debugFunctions := initial_debugFunctions; FEATURES := flags; trace := reports |}
  /\ deprecateFunc env (S fuel) args
       {| debugFunctions := initial_debugFunctions; FEATURES := flags; trace := reports |}
     = Return (default VUndefined (last args))
         {| debugFunctions := initial_debugFunctions; FEATURES := flags; trace := reports |}.
Proof.
  intros HdeprecateFunc HrunInDebug. split.
  - destruct ep; first [ done | reflexivity ].
  - reflexivity.
Qed.

Lemma initial_entry_points_do_nothing_witness :
  enter sample_env ep_debugFreeze 1 [VObj [("a", VNum 1)]] (initial_state ∅)
  = Return VUndefined (initial_state ∅).
Proof.
  exact (proj1 (initial_entry_points_do_nothing sample_env ep_debugFreeze 0
                  [VObj [("a", VNum 1)]] ∅ [] ltac:(discriminate) ltac:(discriminate))).
Defined.



(** X23. With the development [runInDebug] registered, [runInDebug(func)]
    calls [func] without arguments and with [undefined] as [this], lets a
    value thrown by it through, and otherwise returns [undefined] rather
    than the result of [func]; further arguments are ignored.  Called
    without a function it throws a TypeError and leaves the state as it
    was. *)
Theorem runInDebug_runs_its_argument env fuel func rest args s :
  debugFunctions s !! "runInDebug" = Some (VFun fn_runInDebug) ->
  (forall f, nth_arg 0 args <> VFun f) ->
  runInDebug env (S (S fuel)) (VFun func :: rest) s
  = match call env (S fuel) func VUndefined [] s with
    | Return _ s' => Return VUndefined s'
    | Throw e s' => Throw e s'
    | OutOfFuel => OutOfFuel
    end
  /\ exists what,
       runInDebug env (S fuel) args s = Throw (VError TypeError what) s.
Proof.
  intros Hreg Hnone. unfold_entry. rewrite (member_own _ _ _ _ Hreg).
  split; [reflexivity|].
  cbn [apply_with call]. destruct (nth_arg 0 args) as [| | | | | | | |f];
    first [ by eexists | by destruct (Hnone f) ].
Qed.

Lemma runInDebug_runs_its_argument_witness :
  runInDebug sample_env 2 [VFun (Host 4); VNum 1] (development_state ∅)
  = Return VUndefined (development_state ∅)
  /\ exists what,
       runInDebug sample_env 1 [] (development_state ∅)
       = Throw (VError TypeError what) (development_state ∅).
Proof.
  exact (runInDebug_runs_its_argument sample_env 0 (Host 4) [VNum 1] []
           (development_state ∅) eq_refl ltac:(discriminate)).
Defined.
